(** * cyhy-config: locating, reading and validating a CyHy configuration

    A shallow embedding of [src/cyhy_config/cyhy_config.py].

    The Python module reads the process environment, the filesystem and the
    AWS SSM parameter store, and writes log records.  None of these change
    during one call, so the outside is a read-only [World] and every function
    is a computation in a trace-and-exception monad [M]: it yields the list
    of the effects it performed (in order) and either a value or the raised
    exception. *)

From Stdlib Require Import String List ZArith Bool Lia.
Import ListNotations.
Open Scope string_scope.
Open Scope list_scope.
Set Warnings "-register-all".

(** ** Data *)

(** What [tomllib] produces: TOML values.  Floats and date-times are kept as
    their literal text. *)
Inductive value : Type :=
| VStr (s : string)
| VInt (z : Z)
| VBool (b : bool)
| VFloat (lit : string)
| VTable (kv : list (string * value))
| VArray (l : list value).

(** A Python [dict] with string keys, in insertion order. *)
Definition dict : Type := list (string * value).

Fixpoint dict_get (d : dict) (k : string) : option value :=
  match d with
  | [] => None
  | (k', v) :: rest => if String.eqb k' k then Some v else dict_get rest k
  end.

(** [pathlib.Path], kept as the text it was built from. *)
Inductive Path : Type := MkPath (s : string).

Definition path_str (p : Path) : string := let 'MkPath s := p in s.

(** [p / rel] *)
Definition joinpath (p : Path) (rel : string) : Path :=
  MkPath (path_str p ++ "/" ++ rel)%string.

(** The populated fields of a [pydantic.BaseModel] instance
    (what [model_dump()] shows). *)
Definition Instance : Type := list (string * value).

(** One entry of a [pydantic.ValidationError]. *)
Inductive Violation : Type :=
| MissingField (name : string)
| TypeMismatch (name : string)
| UnknownField (name : string).

(** The exceptions that travel through the module. *)
Inductive Exn : Type :=
| FileNotFoundError (msg : string)
| OSError (p : Path)
| ClientError (code : string)
| BotoCoreError (name : string)
| TOMLDecodeError (doc : string)
| ValidationError (errors : list Violation).

(** A model class, as the module uses it: something callable on the
    keyword arguments [**config_dict]. *)
Record Model : Type := { model_call : dict -> Exn + Instance }.

(** The value [get_config] hands back: [T | dict]. *)
Inductive Config : Type :=
| CDict (d : dict)
| CModel (i : Instance).

(** Python truthiness.  A [str] is true unless empty; [None] is false; a
    [dict] is true unless empty; a [BaseModel] instance defines neither
    [__bool__] nor [__len__] and so is always true. *)
Definition truthy_str (s : option string) : option string :=
  match s with
  | Some EmptyString => None
  | Some s' => Some s'
  | None => None
  end.

Definition truthy_config (c : option Config) : bool :=
  match c with
  | None => false
  | Some (CDict []) => false
  | Some (CDict (_ :: _)) => true
  | Some (CModel _) => true
  end.

(** ** The outside world *)

(** Answer of [client("ssm").get_parameter(Name=..., WithDecryption=True)]:
    the parameter's value, a [botocore] [ClientError] with its error code, or
    any other exception of the client (no region, no credentials, endpoint
    unreachable), which is not a [ClientError]. *)
Inductive SsmResponse : Type :=
| SsmValue (v : string)
| SsmClientError (code : string)
| SsmFailure (name : string).

(** Everything a call can ask of its surroundings.  The filesystem answers
    every existence and file-type query; an [exists()] that itself fails (a
    directory that may not be searched, a name that is too long) is not
    part of this model. *)
Record World : Type := {
  environ : string -> option string;      (* os.environ *)
  home : Path;                            (* Path.home() *)
  fs_exists : Path -> bool;               (* Path.exists() *)
  fs_isfile : Path -> bool;               (* os.path.isfile *)
  fs_read : Path -> option string;        (* open(p, "rb").read(), None: OSError *)
  ssm : string -> SsmResponse;            (* the SSM parameter store *)
  toml_loads : string -> option dict      (* tomllib.loads, None: TOMLDecodeError *)
}.

(** ** Effects *)

Inductive Level : Type := DEBUG | INFO | WARNING | ERROR.

Inductive LogArg : Type :=
| AStr (s : string)
| AOpt (s : option string)
| APath (p : Path)
| ADict (d : dict)
| AInst (i : Instance)
| AExn (e : Exn).

Inductive Event : Type :=
| EvLog (lvl : Level) (fmt : string) (args : list LogArg)
| EvEnvGet (name : string)
| EvExists (p : Path)
| EvIsFile (p : Path)
| EvOpen (p : Path)
| EvSsmGet (name : string).

Inductive Outcome (A : Type) : Type :=
| Returns (a : A)
| Raises (e : Exn).
Arguments Returns {A} a.
Arguments Raises {A} e.

Definition M (A : Type) : Type := (list Event * Outcome A)%type.

Definition ret {A} (a : A) : M A := ([], Returns a).
Definition raise {A} (e : Exn) : M A := ([], Raises e).

Definition bind {A B} (m : M A) (k : A -> M B) : M B :=
  match m with
  | (t, Raises e) => (t, Raises e)
  | (t, Returns a) => let '(t', r) := k a in (t ++ t', r)
  end.

Notation "x <- m ;; k" := (bind m (fun x => k))
  (at level 61, m at next level, right associativity).
Notation "m ;; k" := (bind m (fun _ => k))
  (at level 61, right associativity).

(** [try: m  except <class> as e: h e].  The handler answers [None] for an
    exception its [except] clause does not match. *)
Definition try_except {A} (m : M A) (h : Exn -> option (M A)) : M A :=
  match m with
  | (t, Raises e) =>
      match h e with
      | Some k => let '(t', r) := k in (t ++ t', r)
      | None => (t, Raises e)
      end
  | (t, Returns a) => (t, Returns a)
  end.

Definition trace {A} (m : M A) : list Event := fst m.
Definition outcome {A} (m : M A) : Outcome A := snd m.

Definition log (lvl : Level) (fmt : string) (args : list LogArg) : M unit :=
  ([EvLog lvl fmt args], Returns tt).

(** What a trace shows. *)
Definition is_fs_event (e : Event) : bool :=
  match e with
  | EvExists _ | EvIsFile _ | EvOpen _ => true
  | _ => false
  end.

Definition touches_fs (t : list Event) : bool := existsb is_fs_event t.

Fixpoint ssm_requests (t : list Event) : list string :=
  match t with
  | [] => []
  | EvSsmGet k :: t' => k :: ssm_requests t'
  | _ :: t' => ssm_requests t'
  end.

Fixpoint warnings (t : list Event) : list (string * list LogArg) :=
  match t with
  | [] => []
  | EvLog WARNING fmt args :: t' => (fmt, args) :: warnings t'
  | _ :: t' => warnings t'
  end.

(** ** The module *)

Definition CONFIG_PATH_CWD : Path := MkPath "cyhy.toml".
Definition CONFIG_PATH_ETC : Path := MkPath "/etc/cyhy.toml".
Definition CONFIG_PATH_HOME (w : World) : Path := joinpath (home w) ".cyhy/cyhy.toml".
Definition CYHY_CONFIG_PATH_ENV : string := "CYHY_CONFIG_PATH".
Definition CYHY_CONFIG_SSM_PATH_ENV : string := "CYHY_CONFIG_SSM_PATH".

Section Module.

Variable w : World.

(** Primitives *)

Definition environ_get (name : string) : M (option string) :=
  ([EvEnvGet name], Returns (environ w name)).

Definition Path_exists (p : Path) : M bool :=
  ([EvExists p], Returns (fs_exists w p)).

Definition os_path_isfile (p : Path) : M bool :=
  ([EvIsFile p], Returns (fs_isfile w p)).

Definition open_read (p : Path) : M string :=
  ([EvOpen p],
   match fs_read w p with
   | Some s => Returns s
   | None => Raises (OSError p)
   end).

(** [client("ssm")] followed by [get_parameter]; an exception of either
    reaches the caller the same way unless it is a [ClientError]. *)
Definition ssm_get_parameter (name : string) : M string :=
  ([EvSsmGet name],
   match ssm w name with
   | SsmValue v => Returns v
   | SsmClientError code => Raises (ClientError code)
   | SsmFailure n => Raises (BotoCoreError n)
   end).

Definition tomllib_loads (s : string) : M dict :=
  match toml_loads w s with
  | Some d => ret d
  | None => raise (TOMLDecodeError s)
  end.

Definition call_model (model : Model) (config_dict : dict) : M Instance :=
  match model_call model config_dict with
  | inr i => ret i
  | inl e => raise e
  end.

(** [validate_config] *)
Definition validate_config (config_dict : dict) (model : option Model) : M Config :=
  match model with
  | None =>
      log INFO "No model provided, returning config as a dictionary." [] ;;
      log DEBUG "Parsed configuration:\n%s" [ADict config_dict] ;;
      ret (CDict config_dict)
  | Some model =>
      try_except
        (config <- call_model model config_dict ;;
         log DEBUG "Validated configuration:\n%s" [AInst config] ;;
         ret (CModel config))
        (fun e =>
           match e with
           | ValidationError _ => Some (log ERROR "%s" [AExn e] ;; raise e)
           | _ => None
           end)
  end.

(** [find_config_file], from its last check to its first. *)
Definition find_in_etc : M Path :=
  ex <- Path_exists CONFIG_PATH_ETC ;;
  if ex : bool then
    log DEBUG "Using configuration file from /etc directory: %s"
        [APath CONFIG_PATH_ETC] ;;
    ret CONFIG_PATH_ETC
  else
    log ERROR "No CyHy configuration file found." [] ;;
    raise (FileNotFoundError "No CyHy configuration file found.").

Definition find_in_home : M Path :=
  ex <- Path_exists (CONFIG_PATH_HOME w) ;;
  if ex : bool then
    log DEBUG "Using configuration file from home directory: %s"
        [APath (CONFIG_PATH_HOME w)] ;;
    ret (CONFIG_PATH_HOME w)
  else find_in_etc.

Definition find_in_cwd : M Path :=
  ex <- Path_exists CONFIG_PATH_CWD ;;
  if ex : bool then
    log DEBUG "Using configuration file from current working directory: %s"
        [APath CONFIG_PATH_CWD] ;;
    ret CONFIG_PATH_CWD
  else find_in_home.

Definition find_in_env : M Path :=
  env_file_value <- environ_get CYHY_CONFIG_PATH_ENV ;;
  match truthy_str env_file_value with
  | Some v =>
      let env_path := MkPath v in
      ex <- Path_exists env_path ;;
      if ex : bool then
        log DEBUG "Using configuration file from environment variable: %s"
            [APath env_path] ;;
        ret env_path
      else
        log WARNING "Configuration file from environment variable not found: %s"
            [APath env_path] ;;
        find_in_cwd
  | None => find_in_cwd
  end.

Definition find_config_file (file_path : option string) : M Path :=
  match truthy_str file_path with
  | Some fp =>
      ex <- Path_exists (MkPath fp) ;;
      if ex : bool then
        log DEBUG "Using configuration file passed as parameter: %s" [AStr fp] ;;
        ret (MkPath fp)
      else
        log WARNING "Configuration file passed as parameter not found: %s"
            [AStr fp] ;;
        find_in_env
  | None => find_in_env
  end.

(** [read_config_ssm]: the body of [for path, source in ssm_paths]. *)
Fixpoint read_config_ssm_loop (ssm_paths : list (option string * string))
    (model : option Model) : M (option Config) :=
  match ssm_paths with
  | [] => ret None
  | (path, source) :: rest =>
      log DEBUG "Checking SSM parameter from %s: %s" [AStr source; AOpt path] ;;
      match truthy_str path with
      | Some p =>
          (* [None] here stands for the handler's [return None] *)
          response <-
            try_except
              (v <- ssm_get_parameter p ;; ret (Some v))
              (fun e =>
                 match e with
                 | ClientError code =>
                     Some (if String.eqb code "ParameterNotFound" then
                             log WARNING "SSM parameter not found: %s" [AStr p] ;;
                             ret None
                           else
                             log ERROR "%s" [AExn e] ;;
                             raise e)
                 | _ => None
                 end) ;;
          match response with
          | None => ret None
          | Some param_value =>
              log DEBUG "Using configuration file from SSM %s: %s"
                  [AStr source; AStr p] ;;
              config_dict <-
                try_except
                  (tomllib_loads param_value)
                  (fun e =>
                     match e with
                     | TOMLDecodeError _ =>
                         Some (log ERROR "Error decoding TOML: %s" [AStr param_value] ;;
                               raise e)
                     | _ => None
                     end) ;;
              config <- validate_config config_dict model ;;
              ret (Some config)
          end
      | None => read_config_ssm_loop rest model
      end
  end.

Definition read_config_ssm (ssm_path : option string) (model : option Model)
    : M (option Config) :=
  env_ssm_value <- environ_get CYHY_CONFIG_SSM_PATH_ENV ;;
  let ssm_paths := [(ssm_path, "path"); (env_ssm_value, "environment variable")] in
  read_config_ssm_loop ssm_paths model.

(** [read_config_file] *)
Definition read_config_file (config_file : Path) (model : option Model) : M Config :=
  isf <- os_path_isfile config_file ;;
  if isf : bool then
    config_dict <-
      try_except
        (log DEBUG "Reading config file: %s" [APath config_file] ;;
         f <- open_read config_file ;;
         tomllib_loads f)
        (fun e =>
           match e with
           | TOMLDecodeError _ =>
               Some (log ERROR "Error decoding TOML file: %s" [APath config_file] ;;
                     raise e)
           | _ => None
           end) ;;
    validate_config config_dict model
  else
    log ERROR "Config file not found: %s" [APath config_file] ;;
    raise (FileNotFoundError ("Config file not found: " ++ path_str config_file)%string).

(** The second half of [get_config]: the configuration comes from a file. *)
Definition config_from_file (file_path : option string) (model : option Model)
    : M Config :=
  config_file_path <- find_config_file file_path ;;
  read_config_file config_file_path model.

(** [get_config] *)
Definition get_config (file_path ssm_path : option string) (model : option Model)
    : M Config :=
  config <- read_config_ssm ssm_path model ;;
  match config with
  | Some c => if truthy_config config then ret c else config_from_file file_path model
  | None => config_from_file file_path model
  end.

End Module.

(** ** Schema descriptors *)

Inductive FieldType : Type := TStr | TInt | TBool | TFloat | TTable | TArray | TAny.

Record FieldSpec : Type := {
  f_name : string;
  f_type : FieldType;
  f_required : bool
}.

Record SchemaDescriptor : Type := {
  describe_fields : list FieldSpec;
  allow_unknown : bool
}.

Definition has_type (t : FieldType) (v : value) : bool :=
  match t, v with
  | TAny, _ => true
  | TStr, VStr _ => true
  | TInt, VInt _ => true
  | TBool, VBool _ => true
  | TFloat, VFloat _ => true
  | TTable, VTable _ => true
  | TArray, VArray _ => true
  | _, _ => false
  end.

Definition declared (s : SchemaDescriptor) (k : string) : bool :=
  existsb (fun f => String.eqb (f_name f) k) (describe_fields s).

Definition field_violations (m : dict) (f : FieldSpec) : list Violation :=
  match dict_get m (f_name f) with
  | None => if f_required f then [MissingField (f_name f)] else []
  | Some v => if has_type (f_type f) v then [] else [TypeMismatch (f_name f)]
  end.

Definition unknown_violations (s : SchemaDescriptor) (m : dict) : list Violation :=
  if allow_unknown s then []
  else flat_map (fun kv => if declared s (fst kv) then [] else [UnknownField (fst kv)]) m.

Definition schema_violations (s : SchemaDescriptor) (m : dict) : list Violation :=
  flat_map (field_violations m) (describe_fields s) ++ unknown_violations s m.

Definition populate (s : SchemaDescriptor) (m : dict) : Instance :=
  flat_map (fun f => match dict_get m (f_name f) with
                     | Some v => [(f_name f, v)]
                     | None => []
                     end) (describe_fields s).

(** Modelled from the spec: the model class handed to [get_config] is the
    caller's [pydantic.BaseModel] subclass and is not part of the repository.
    The specification describes it as a schema descriptor,
    [describe_fields() -> [(name, type, required)]] with its own openness
    policy, whose construction from a mapping either yields the instance or
    fails with every violation found (field type mismatch, missing required
    field, rejected unknown field), not just the first. *)
Definition schema_model (s : SchemaDescriptor) : Model :=
  {| model_call := fun m =>
       match schema_violations s m with
       | [] => inr (populate s m)
       | vs => inl (ValidationError vs)
       end |}.

(** The mapping holds every required field. *)
Definition has_required (s : SchemaDescriptor) (m : dict) : bool :=
  forallb (fun f => match dict_get m (f_name f) with
                    | Some _ => true
                    | None => negb (f_required f)
                    end) (describe_fields s).

(** The mapping holds every required field, each with a value of the type
    the schema gives it (and nothing is said of its other entries). *)
Definition required_fields_typed (s : SchemaDescriptor) (m : dict) : bool :=
  forallb (fun f => if f_required f
                    then match dict_get m (f_name f) with
                         | Some v => has_type (f_type f) v
                         | None => false
                         end
                    else true) (describe_fields s).

(** Every entry of the mapping has the type the schema gives its key; a key
    the schema does not declare is judged by the openness policy. *)
Definition entry_admitted (s : SchemaDescriptor) (kv : string * value) : bool :=
  forallb (fun f => if String.eqb (f_name f) (fst kv)
                    then has_type (f_type f) (snd kv) else true)
          (describe_fields s)
  && (allow_unknown s || declared s (fst kv)).

Definition well_typed (s : SchemaDescriptor) (m : dict) : bool :=
  forallb (fun kv => match dict_get m (fst kv) with
                     | Some v => entry_admitted s (fst kv, v)
                     | None => true
                     end) m.

(** ** The precedence order of the specification *)

(** The path each filesystem tier proposes, if it proposes one. *)
Definition tier_path (w : World) (file_path : option string) (k : nat) : option Path :=
  match k with
  | 1 => option_map MkPath (truthy_str file_path)
  | 2 => option_map MkPath (truthy_str (environ w CYHY_CONFIG_PATH_ENV))
  | 3 => Some CONFIG_PATH_CWD
  | 4 => Some (CONFIG_PATH_HOME w)
  | 5 => Some CONFIG_PATH_ETC
  | _ => None
  end.

Definition tier_candidate (w : World) (file_path : option string) (k : nat) : bool :=
  match tier_path w file_path k with
  | Some p => fs_exists w p
  | None => false
  end.

(** The first non-empty key among the two slots: the argument, then the
    environment variable. *)
Definition ssm_first_key (w : World) (ssm_path : option string) : option string :=
  match truthy_str ssm_path with
  | Some k => Some k
  | None => truthy_str (environ w CYHY_CONFIG_SSM_PATH_ENV)
  end.

(** A failure of the remote store other than parameter-not-found, and the
    exception it surfaces as. *)
Inductive remote_failure : SsmResponse -> Exn -> Prop :=
| rf_client code :
    code <> "ParameterNotFound" -> remote_failure (SsmClientError code) (ClientError code)
| rf_other name :
    remote_failure (SsmFailure name) (BotoCoreError name).

(** ** Concrete worlds *)

Definition path_eqb (p q : Path) : bool := String.eqb (path_str p) (path_str q).

(** A reader for the three documents the examples use. *)
Definition sample_loads (s : string) : option dict :=
  if String.eqb s EmptyString then Some []
  else if String.eqb s "port = 8080" then Some [("port", VInt 8080)]
  else if String.eqb s "debug = true" then Some [("debug", VBool true)]
  else None.

(** Nothing on disk, nothing in the environment, no parameter in the store. *)
Definition bare_world : World :=
  {| environ := fun _ => None;
     home := MkPath "/home/cyhy";
     fs_exists := fun _ => false;
     fs_isfile := fun _ => false;
     fs_read := fun _ => None;
     ssm := fun _ => SsmClientError "ParameterNotFound";
     toml_loads := sample_loads |}.

Definition with_file (p : Path) (text : string) (w : World) : World :=
  {| environ := environ w;
     home := home w;
     fs_exists := fun q => if path_eqb q p then true else fs_exists w q;
     fs_isfile := fun q => if path_eqb q p then true else fs_isfile w q;
     fs_read := fun q => if path_eqb q p then Some text else fs_read w q;
     ssm := ssm w;
     toml_loads := toml_loads w |}.

Definition with_dir (p : Path) (w : World) : World :=
  {| environ := environ w;
     home := home w;
     fs_exists := fun q => if path_eqb q p then true else fs_exists w q;
     fs_isfile := fun q => if path_eqb q p then false else fs_isfile w q;
     fs_read := fun q => if path_eqb q p then None else fs_read w q;
     ssm := ssm w;
     toml_loads := toml_loads w |}.

Definition with_env (name val : string) (w : World) : World :=
  {| environ := fun n => if String.eqb n name then Some val else environ w n;
     home := home w;
     fs_exists := fs_exists w;
     fs_isfile := fs_isfile w;
     fs_read := fs_read w;
     ssm := ssm w;
     toml_loads := toml_loads w |}.

Definition with_param (key : string) (r : SsmResponse) (w : World) : World :=
  {| environ := environ w;
     home := home w;
     fs_exists := fs_exists w;
     fs_isfile := fs_isfile w;
     fs_read := fs_read w;
     ssm := fun k => if String.eqb k key then r else ssm w k;
     toml_loads := toml_loads w |}.

Definition port_schema : SchemaDescriptor :=
  {| describe_fields :=
       [ {| f_name := "port"; f_type := TInt; f_required := true |};
         {| f_name := "debug"; f_type := TBool; f_required := false |} ];
     allow_unknown := false |}.

(** A configuration file given by argument, and a parameter in the store. *)
Definition remote_and_file_world : World :=
  with_file (MkPath "conf/cyhy.toml") "port = 8080"
    (with_param "/cyhy/config" (SsmValue "debug = true") bare_world).

(** The parameter exists and holds the empty document; [cyhy.toml] is in the
    current directory. *)
Definition empty_remote_world : World :=
  with_file CONFIG_PATH_CWD "port = 8080"
    (with_param "/cyhy/config" (SsmValue EmptyString) bare_world).

(** The store throttles the request; [cyhy.toml] is in the current directory. *)
Definition throttled_world : World :=
  with_file CONFIG_PATH_CWD "port = 8080"
    (with_param "/cyhy/config" (SsmClientError "ThrottlingException") bare_world).

(** The environment names a parameter that exists; any other key is unknown
    to the store.  [cyhy.toml] is in the current directory. *)
Definition env_key_world : World :=
  with_env CYHY_CONFIG_SSM_PATH_ENV "/cyhy/env"
    (with_param "/cyhy/env" (SsmValue "debug = true")
       (with_file CONFIG_PATH_CWD "port = 8080" bare_world)).

(** Only the home directory has a configuration file. *)
Definition home_world : World :=
  with_file (MkPath "/home/cyhy/.cyhy/cyhy.toml") "port = 8080" bare_world.

(** [/etc/cyhy.toml] is a directory. *)
Definition etc_dir_world : World := with_dir CONFIG_PATH_ETC bare_world.

(** The records a trace logs at [ERROR] level. *)
Fixpoint error_logs (t : list Event) : list (string * list LogArg) :=
  match t with
  | [] => []
  | EvLog ERROR fmt args :: t' => (fmt, args) :: error_logs t'
  | _ :: t' => error_logs t'
  end.

(** The paths a trace tests for existence, in order. *)
Fixpoint existence_checks (t : list Event) : list Path :=
  match t with
  | [] => []
  | EvExists p :: t' => p :: existence_checks t'
  | _ :: t' => existence_checks t'
  end.

(** A regular file that cannot be opened. *)
Definition with_unreadable (p : Path) (w : World) : World :=
  {| environ := environ w;
     home := home w;
     fs_exists := fun q => if path_eqb q p then true else fs_exists w q;
     fs_isfile := fun q => if path_eqb q p then true else fs_isfile w q;
     fs_read := fun q => if path_eqb q p then None else fs_read w q;
     ssm := ssm w;
     toml_loads := toml_loads w |}.

(** The parameter holds text that is not TOML; [cyhy.toml] is fine. *)
Definition garbled_remote_world : World :=
  with_file CONFIG_PATH_CWD "port = 8080"
    (with_param "/cyhy/config" (SsmValue "port = = 8080") bare_world).

(** [cyhy.toml] in the current directory holds text that is not TOML. *)
Definition garbled_file_world : World :=
  with_file CONFIG_PATH_CWD "port = = 8080" bare_world.

(** [cyhy.toml] in the current directory cannot be opened. *)
Definition unreadable_world : World := with_unreadable CONFIG_PATH_CWD bare_world.

(** The argument and the environment both name paths that do not exist;
    [/etc/cyhy.toml] does. *)
Definition stale_paths_world : World :=
  with_env CYHY_CONFIG_PATH_ENV "/opt/cyhy.toml"
    (with_file CONFIG_PATH_ETC "port = 8080" bare_world).

(** A schema whose fields are all optional. *)
Definition lenient_schema : SchemaDescriptor :=
  {| describe_fields :=
       [ {| f_name := "debug"; f_type := TBool; f_required := false |} ];
     allow_unknown := true |}.

(** * Properties *)

(** ** Running computations *)

Lemma bind_returns {A B} (m : M A) (k : A -> M B) a :
  outcome m = Returns a ->
  bind m k = (trace m ++ trace (k a), outcome (k a)).
Proof.
  destruct m as [t o]; simpl; intros ->; simpl.
  destruct (k a); reflexivity.
Qed.

Lemma bind_raises {A B} (m : M A) (k : A -> M B) e :
  outcome m = Raises e ->
  bind m k = (trace m, Raises e).
Proof. destruct m as [t o]; simpl; intros ->; reflexivity. Qed.

Lemma outcome_bind {A B} t a (k : A -> M B) :
  outcome (bind (t, Returns a) k) = outcome (k a).
Proof. unfold bind; destruct (k a); reflexivity. Qed.

Lemma touches_fs_app t1 t2 :
  touches_fs (t1 ++ t2) = touches_fs t1 || touches_fs t2.
Proof. apply existsb_app. Qed.

Lemma ssm_requests_app t1 t2 :
  ssm_requests (t1 ++ t2) = ssm_requests t1 ++ ssm_requests t2.
Proof.
  induction t1 as [|e t1 IH]; simpl; [reflexivity|].
  destruct e; simpl; rewrite IH; reflexivity.
Qed.

(** Split on the innermost undecided query of the goal. *)
Ltac split_query :=
  match goal with
  | |- context [match ?x with _ => _ end] =>
      lazymatch x with
      | context [match _ with _ => _ end] => fail
      | _ => destruct x eqn:?
      end
  end.

Create HintDb effects.

#[local] Hint Unfold environ_get Path_exists os_path_isfile open_read
  ssm_get_parameter tomllib_loads call_model validate_config log ret raise
  : effects.

Ltac run :=
  repeat (autounfold with effects in *;
          cbn -[String.eqb append] in *;
          try split_query).

(** ** [find_config_file] *)

Section Locate.

Variable w : World.

Lemma find_in_etc_hit :
  fs_exists w CONFIG_PATH_ETC = true ->
  outcome (find_in_etc w) = Returns CONFIG_PATH_ETC.
Proof.
  intros H. unfold find_in_etc, Path_exists, log.
  rewrite outcome_bind, H, outcome_bind. reflexivity.
Qed.

Lemma find_in_etc_miss :
  fs_exists w CONFIG_PATH_ETC = false ->
  outcome (find_in_etc w) = Raises (FileNotFoundError "No CyHy configuration file found.").
Proof.
  intros H. unfold find_in_etc, Path_exists, log.
  rewrite outcome_bind, H, outcome_bind. reflexivity.
Qed.

Lemma find_in_home_hit :
  fs_exists w (CONFIG_PATH_HOME w) = true ->
  outcome (find_in_home w) = Returns (CONFIG_PATH_HOME w).
Proof.
  intros H. unfold find_in_home, Path_exists, log.
  rewrite outcome_bind, H, outcome_bind. reflexivity.
Qed.

Lemma find_in_home_miss :
  fs_exists w (CONFIG_PATH_HOME w) = false ->
  outcome (find_in_home w) = outcome (find_in_etc w).
Proof.
  intros H. unfold find_in_home, Path_exists.
  rewrite outcome_bind, H. reflexivity.
Qed.

Lemma find_in_cwd_hit :
  fs_exists w CONFIG_PATH_CWD = true ->
  outcome (find_in_cwd w) = Returns CONFIG_PATH_CWD.
Proof.
  intros H. unfold find_in_cwd, Path_exists, log.
  rewrite outcome_bind, H, outcome_bind. reflexivity.
Qed.

Lemma find_in_cwd_miss :
  fs_exists w CONFIG_PATH_CWD = false ->
  outcome (find_in_cwd w) = outcome (find_in_home w).
Proof.
  intros H. unfold find_in_cwd, Path_exists.
  rewrite outcome_bind, H. reflexivity.
Qed.

Lemma find_in_env_hit p :
  tier_path w None 2 = Some p ->
  fs_exists w p = true ->
  outcome (find_in_env w) = Returns p.
Proof.
  unfold tier_path, find_in_env, environ_get. rewrite outcome_bind.
  destruct (truthy_str (environ w CYHY_CONFIG_PATH_ENV)) as [v|]; [|discriminate].
  intros [= <-] H. unfold Path_exists, log.
  rewrite outcome_bind, H, outcome_bind. reflexivity.
Qed.

Lemma find_in_env_miss :
  tier_candidate w None 2 = false ->
  outcome (find_in_env w) = outcome (find_in_cwd w).
Proof.
  unfold tier_candidate, tier_path, find_in_env, environ_get. rewrite outcome_bind.
  destruct (truthy_str (environ w CYHY_CONFIG_PATH_ENV)) as [v|]; [|reflexivity].
  intros H. unfold Path_exists, log. simpl in H.
  rewrite outcome_bind, H, outcome_bind. reflexivity.
Qed.

Lemma find_config_file_hit file_path p :
  tier_path w file_path 1 = Some p ->
  fs_exists w p = true ->
  outcome (find_config_file w file_path) = Returns p.
Proof.
  unfold tier_path, find_config_file.
  destruct (truthy_str file_path) as [v|]; [|discriminate].
  intros [= <-] H. unfold Path_exists, log.
  rewrite outcome_bind, H, outcome_bind. reflexivity.
Qed.

Lemma find_config_file_miss file_path :
  tier_candidate w file_path 1 = false ->
  outcome (find_config_file w file_path) = outcome (find_in_env w).
Proof.
  unfold tier_candidate, tier_path, find_config_file.
  destruct (truthy_str file_path) as [v|]; [|reflexivity].
  intros H. unfold Path_exists, log. simpl in H.
  rewrite outcome_bind, H, outcome_bind. reflexivity.
Qed.

(** Tiers 2 to 5 do not look at the argument. *)
Lemma tier_candidate_arg file_path k :
  2 <= k -> tier_candidate w file_path k = tier_candidate w None k.
Proof.
  intros Hk. unfold tier_candidate.
  destruct k as [|[|k]]; [lia | lia | reflexivity].
Qed.

(** Whatever [find_config_file] returns passed its existence check. *)
Lemma find_config_file_exists file_path p :
  outcome (find_config_file w file_path) = Returns p -> fs_exists w p = true.
Proof.
  unfold find_config_file, find_in_env, find_in_cwd, find_in_home, find_in_etc,
    Path_exists, environ_get, log, ret, raise.
  run; intros H; inversion H; subst; assumption.
Qed.

(** It asks nothing of the parameter store. *)
Lemma find_config_file_no_ssm file_path :
  ssm_requests (trace (find_config_file w file_path)) = [].
Proof.
  unfold find_config_file, find_in_env, find_in_cwd, find_in_home, find_in_etc,
    Path_exists, environ_get, log, ret, raise.
  run; reflexivity.
Qed.

(** It always tests at least one path. *)
Lemma find_config_file_touches_fs file_path :
  touches_fs (trace (find_config_file w file_path)) = true.
Proof.
  unfold find_config_file, find_in_env, find_in_cwd, find_in_home, find_in_etc,
    Path_exists, environ_get, log, ret, raise.
  run; reflexivity.
Qed.

End Locate.

(** ** [read_config_file] and [validate_config] *)

Section Read.

Variable w : World.

Lemma read_config_file_not_regular p model :
  fs_isfile w p = false ->
  read_config_file w p model =
    ([EvIsFile p; EvLog ERROR "Config file not found: %s" [APath p]],
     Raises (FileNotFoundError ("Config file not found: " ++ path_str p)%string)).
Proof.
  intros H. unfold read_config_file, os_path_isfile, bind. rewrite H. reflexivity.
Qed.

Lemma read_config_file_no_ssm p model :
  ssm_requests (trace (read_config_file w p model)) = [].
Proof.
  unfold read_config_file, validate_config, call_model, tomllib_loads,
    os_path_isfile, open_read, log, ret, raise.
  run; reflexivity.
Qed.

(** Without a model, what a file read returns is the mapping decoded from
    the file's text. *)
Lemma read_config_file_plain p c :
  outcome (read_config_file w p None) = Returns c ->
  exists text d,
    fs_read w p = Some text /\ toml_loads w text = Some d /\ c = CDict d.
Proof.
  unfold read_config_file, validate_config, tomllib_loads,
    os_path_isfile, open_read, log, ret, raise.
  run; intros H; inversion H; subst; eauto.
Qed.

(** ** [read_config_ssm] *)

Lemma read_config_ssm_requests ssm_path model :
  ssm_requests (trace (read_config_ssm w ssm_path model)) =
    match ssm_first_key w ssm_path with Some k => [k] | None => [] end.
Proof.
  unfold read_config_ssm, ssm_first_key, validate_config, call_model, tomllib_loads,
    environ_get, ssm_get_parameter, log, ret, raise.
  run; reflexivity.
Qed.

Lemma read_config_ssm_no_fs ssm_path model :
  touches_fs (trace (read_config_ssm w ssm_path model)) = false.
Proof.
  unfold read_config_ssm, validate_config, call_model, tomllib_loads,
    environ_get, ssm_get_parameter, log, ret, raise.
  run; reflexivity.
Qed.

Lemma read_config_ssm_no_key ssm_path model :
  ssm_first_key w ssm_path = None ->
  outcome (read_config_ssm w ssm_path model) = Returns None.
Proof.
  unfold read_config_ssm, ssm_first_key, environ_get, log, ret.
  run; intros H; try discriminate H; reflexivity.
Qed.


Lemma read_config_ssm_failure ssm_path model k e :
  ssm_first_key w ssm_path = Some k ->
  remote_failure (ssm w k) e ->
  outcome (read_config_ssm w ssm_path model) = Raises e.
Proof.
  unfold read_config_ssm, ssm_first_key, environ_get, ssm_get_parameter, log, ret, raise.
  destruct (truthy_str ssm_path) as [k1|] eqn:E1;
    [| destruct (truthy_str (environ w CYHY_CONFIG_SSM_PATH_ENV)) as [k2|] eqn:E2 ];
    intros H; inversion H; subst; intros Hs;
    cbn -[String.eqb]; rewrite ?E1, ?E2; cbn -[String.eqb];
    inversion Hs as [code Hc Hr | name Hr]; subst; cbn -[String.eqb];
    try (destruct (String.eqb_spec code "ParameterNotFound") as [->|_]; [congruence|]);
    reflexivity.
Qed.

Lemma read_config_ssm_value ssm_path k text d :
  ssm_first_key w ssm_path = Some k ->
  ssm w k = SsmValue text ->
  toml_loads w text = Some d ->
  outcome (read_config_ssm w ssm_path None) = Returns (Some (CDict d)).
Proof.
  unfold read_config_ssm, ssm_first_key, environ_get, ssm_get_parameter,
    tomllib_loads, validate_config, log, ret, raise.
  destruct (truthy_str ssm_path) as [k1|] eqn:E1;
    [| destruct (truthy_str (environ w CYHY_CONFIG_SSM_PATH_ENV)) as [k2|] eqn:E2 ];
    intros H; inversion H; subst; intros Hs Hd;
    cbn -[String.eqb]; rewrite ?E1, ?E2; cbn -[String.eqb]; rewrite Hs;
    cbn -[String.eqb]; unfold tomllib_loads, validate_config, log, ret;
    rewrite Hd; reflexivity.
Qed.

(** Without a model, what the remote lookup returns is the mapping decoded
    from the text the store holds under the first key. *)
Lemma read_config_ssm_plain ssm_path c :
  outcome (read_config_ssm w ssm_path None) = Returns (Some c) ->
  exists k text d,
    ssm_first_key w ssm_path = Some k /\ ssm w k = SsmValue text /\
    toml_loads w text = Some d /\ c = CDict d.
Proof.
  unfold read_config_ssm, ssm_first_key, validate_config, tomllib_loads,
    environ_get, ssm_get_parameter, log, ret, raise.
  run; intros H; inversion H; subst; eauto 10.
Qed.

End Read.

(** ** [get_config] *)

Section Resolve.

Variable w : World.

Lemma config_from_file_found file_path model p :
  outcome (find_config_file w file_path) = Returns p ->
  config_from_file w file_path model =
    (trace (find_config_file w file_path) ++ trace (read_config_file w p model),
     outcome (read_config_file w p model)).
Proof.
  intros H. unfold config_from_file.
  exact (bind_returns _ (fun q => read_config_file w q model) _ H).
Qed.

Lemma config_from_file_none file_path model e :
  outcome (find_config_file w file_path) = Raises e ->
  config_from_file w file_path model = (trace (find_config_file w file_path), Raises e).
Proof. intros H. unfold config_from_file. apply bind_raises, H. Qed.

Lemma config_from_file_no_ssm file_path model :
  ssm_requests (trace (config_from_file w file_path model)) = [].
Proof.
  destruct (outcome (find_config_file w file_path)) as [p|e] eqn:E.
  - rewrite (config_from_file_found _ _ _ E). unfold trace at 1; simpl.
    rewrite ssm_requests_app, find_config_file_no_ssm, read_config_file_no_ssm.
    reflexivity.
  - rewrite (config_from_file_none _ _ _ E). unfold trace at 1; simpl.
    apply find_config_file_no_ssm.
Qed.

(** The three ways through [get_config]. *)
Lemma get_config_remote file_path ssm_path model c :
  outcome (read_config_ssm w ssm_path model) = Returns (Some c) ->
  truthy_config (Some c) = true ->
  get_config w file_path ssm_path model =
    (trace (read_config_ssm w ssm_path model), Returns c).
Proof.
  intros H Ht. unfold get_config. rewrite (bind_returns _ _ _ H), Ht.
  unfold ret, trace at 2; simpl. rewrite app_nil_r. reflexivity.
Qed.

Lemma get_config_falls_through file_path ssm_path model r :
  outcome (read_config_ssm w ssm_path model) = Returns r ->
  truthy_config r = false ->
  get_config w file_path ssm_path model =
    (trace (read_config_ssm w ssm_path model) ++ trace (config_from_file w file_path model),
     outcome (config_from_file w file_path model)).
Proof.
  intros H Ht. unfold get_config. rewrite (bind_returns _ _ _ H).
  destruct r as [c|]; [rewrite Ht|]; reflexivity.
Qed.

Lemma get_config_remote_raises file_path ssm_path model e :
  outcome (read_config_ssm w ssm_path model) = Raises e ->
  get_config w file_path ssm_path model =
    (trace (read_config_ssm w ssm_path model), Raises e).
Proof. intros H. unfold get_config. apply bind_raises, H. Qed.

Lemma get_config_requests file_path ssm_path model :
  ssm_requests (trace (get_config w file_path ssm_path model)) =
  ssm_requests (trace (read_config_ssm w ssm_path model)).
Proof.
  destruct (outcome (read_config_ssm w ssm_path model)) as [r|e] eqn:E.
  - destruct (truthy_config r) eqn:Ht.
    + destruct r as [c|]; [|discriminate Ht].
      rewrite (get_config_remote file_path _ _ _ E Ht). reflexivity.
    + rewrite (get_config_falls_through file_path _ _ _ E Ht).
      unfold trace at 1; simpl.
      rewrite ssm_requests_app, config_from_file_no_ssm, app_nil_r. reflexivity.
  - rewrite (get_config_remote_raises file_path _ _ _ E). reflexivity.
Qed.

(** The first existing candidate in tier order is the one returned. *)
Lemma first_candidate_found file_path k p :
  1 <= k <= 5 ->
  tier_path w file_path k = Some p ->
  fs_exists w p = true ->
  (forall j, 1 <= j < k -> tier_candidate w file_path j = false) ->
  outcome (find_config_file w file_path) = Returns p.
Proof.
  intros Hk Hp Hex Hprev.
  assert (Hskip : forall j, 1 <= j < k -> 2 <= j -> tier_candidate w None j = false).
  { intros j Hj H2. rewrite <- (tier_candidate_arg w file_path _ H2). apply Hprev, Hj. }
  destruct k as [|[|[|[|[|[|k]]]]]]; try lia.
  - apply find_config_file_hit; assumption.
  - rewrite find_config_file_miss by (apply Hprev; lia).
    apply find_in_env_hit; assumption.
  - rewrite find_config_file_miss by (apply Hprev; lia).
    rewrite find_in_env_miss by (apply Hskip; lia).
    injection Hp as <-. apply find_in_cwd_hit, Hex.
  - rewrite find_config_file_miss by (apply Hprev; lia).
    rewrite find_in_env_miss by (apply Hskip; lia).
    rewrite find_in_cwd_miss by (apply (Hskip 3); lia).
    injection Hp as <-. apply find_in_home_hit, Hex.
  - rewrite find_config_file_miss by (apply Hprev; lia).
    rewrite find_in_env_miss by (apply Hskip; lia).
    rewrite find_in_cwd_miss by (apply (Hskip 3); lia).
    rewrite find_in_home_miss by (apply (Hskip 4); lia).
    injection Hp as <-. apply find_in_etc_hit, Hex.
Qed.

Lemma no_candidate_not_found file_path :
  (forall k, 1 <= k <= 5 -> tier_candidate w file_path k = false) ->
  outcome (find_config_file w file_path) =
    Raises (FileNotFoundError "No CyHy configuration file found.").
Proof.
  intros Hnone.
  assert (Hskip : forall j, 2 <= j <= 5 -> tier_candidate w None j = false).
  { intros j Hj. rewrite <- (tier_candidate_arg w file_path _ (proj1 Hj)).
    apply Hnone. lia. }
  rewrite find_config_file_miss by (apply Hnone; lia).
  rewrite find_in_env_miss by (apply Hskip; lia).
  rewrite find_in_cwd_miss by (apply (Hskip 3); lia).
  rewrite find_in_home_miss by (apply (Hskip 4); lia).
  apply find_in_etc_miss. apply (Hskip 5); lia.
Qed.

End Resolve.

(** ** The claims *)

(** C1. For each of the five filesystem tiers, in the order explicit
    argument, environment variable, current directory, home directory,
    [/etc]: if the tier's path exists and no earlier tier has an existing
    candidate, [find_config_file] returns exactly that tier's path. *)
Theorem find_config_file_precedence (w : World) (file_path : option string)
    (k : nat) (p : Path) :
  1 <= k <= 5 ->
  tier_path w file_path k = Some p ->
  fs_exists w p = true ->
  (forall j, 1 <= j < k -> tier_candidate w file_path j = false) ->
  outcome (find_config_file w file_path) = Returns p.
Proof. apply first_candidate_found. Qed.

Lemma find_config_file_precedence_home :
  outcome (find_config_file home_world (Some "missing.toml")) =
    Returns (MkPath "/home/cyhy/.cyhy/cyhy.toml").
Proof.
  apply (find_config_file_precedence home_world (Some "missing.toml") 4).
  - lia.
  - reflexivity.
  - reflexivity.
  - intros j Hj. destruct j as [|[|[|[|j]]]]; try lia; reflexivity.
Defined.

(** C2, as the code has it.  The remote store comes before the explicit
    path: a configuration obtained from the store is returned and no path is
    looked at; when the remote lookup returns [None], an explicit path that
    exists is the one that is read, ahead of every other filesystem tier. *)
Theorem explicit_path_after_remote (w : World) (file_path ssm_path : option string)
    (model : option Model) :
  (forall c,
     outcome (read_config_ssm w ssm_path model) = Returns (Some c) ->
     truthy_config (Some c) = true ->
     outcome (get_config w file_path ssm_path model) = Returns c /\
     touches_fs (trace (get_config w file_path ssm_path model)) = false) /\
  (forall p,
     outcome (read_config_ssm w ssm_path model) = Returns None ->
     truthy_str file_path = Some p ->
     fs_exists w (MkPath p) = true ->
     get_config w file_path ssm_path model =
       (trace (read_config_ssm w ssm_path model)
          ++ [EvExists (MkPath p);
              EvLog DEBUG "Using configuration file passed as parameter: %s" [AStr p]]
          ++ trace (read_config_file w (MkPath p) model),
        outcome (read_config_file w (MkPath p) model))).
Proof.
  split.
  - intros c H Ht. rewrite (get_config_remote w file_path _ _ _ H Ht).
    split; [reflexivity | apply read_config_ssm_no_fs].
  - intros p H Hp Hex.
    rewrite (get_config_falls_through w file_path _ _ _ H eq_refl).
    assert (Hfind : find_config_file w file_path =
              ([EvExists (MkPath p);
                EvLog DEBUG "Using configuration file passed as parameter: %s" [AStr p]],
               Returns (MkPath p))).
    { unfold find_config_file, Path_exists, log, ret, bind.
      rewrite Hp, Hex. reflexivity. }
    rewrite (config_from_file_found w file_path model (MkPath p)) by (rewrite Hfind; reflexivity).
    rewrite Hfind. reflexivity.
Qed.

Lemma explicit_path_after_remote_sample :
  outcome (get_config home_world (Some "/home/cyhy/.cyhy/cyhy.toml") None None) =
    Returns (CDict [("port", VInt 8080)]) /\
  outcome (get_config remote_and_file_world (Some "conf/cyhy.toml")
             (Some "/cyhy/config") None) =
    Returns (CDict [("debug", VBool true)]).
Proof.
  split.
  - rewrite (proj2 (explicit_path_after_remote home_world
               (Some "/home/cyhy/.cyhy/cyhy.toml") None None)
               "/home/cyhy/.cyhy/cyhy.toml" eq_refl eq_refl eq_refl).
    reflexivity.
  - apply (proj1 (explicit_path_after_remote remote_and_file_world
               (Some "conf/cyhy.toml") (Some "/cyhy/config") None)
               (CDict [("debug", VBool true)]) eq_refl eq_refl).
Defined.

(** C2, counterexample.  The explicit path names an existing regular file
    holding [port = 8080], yet [get_config] returns the mapping of the
    remote parameter and never looks at the filesystem. *)
Lemma explicit_path_not_first :
  fs_exists remote_and_file_world (MkPath "conf/cyhy.toml") = true /\
  fs_isfile remote_and_file_world (MkPath "conf/cyhy.toml") = true /\
  outcome (read_config_file remote_and_file_world (MkPath "conf/cyhy.toml") None) =
    Returns (CDict [("port", VInt 8080)]) /\
  outcome (get_config remote_and_file_world (Some "conf/cyhy.toml")
             (Some "/cyhy/config") None) =
    Returns (CDict [("debug", VBool true)]) /\
  ssm_requests (trace (get_config remote_and_file_world (Some "conf/cyhy.toml")
                         (Some "/cyhy/config") None)) = ["/cyhy/config"] /\
  touches_fs (trace (get_config remote_and_file_world (Some "conf/cyhy.toml")
                       (Some "/cyhy/config") None)) = false.
Proof. repeat split; reflexivity. Qed.

(** C3, at the failing input.  The store returns a value for the configured
    key (the empty document, which decodes to the empty mapping) and no
    model is given: [read_config_ssm] returns that mapping, but [get_config]
    goes on to the filesystem and returns the mapping of [cyhy.toml]. *)
Theorem empty_remote_mapping_reads_file :
  ssm empty_remote_world "/cyhy/config" = SsmValue EmptyString /\
  outcome (read_config_ssm empty_remote_world (Some "/cyhy/config") None) =
    Returns (Some (CDict [])) /\
  outcome (get_config empty_remote_world None (Some "/cyhy/config") None) =
    Returns (CDict [("port", VInt 8080)]) /\
  touches_fs (trace (get_config empty_remote_world None (Some "/cyhy/config") None)) = true.
Proof. repeat split; reflexivity. Qed.



(** C5. If the store fails for the first key with anything other than
    parameter-not-found, [get_config] raises that error at once and the
    filesystem is never looked at, whatever it holds. *)
Theorem remote_failure_is_fatal (w : World) (file_path ssm_path : option string)
    (model : option Model) (k : string) (e : Exn) :
  ssm_first_key w ssm_path = Some k ->
  remote_failure (ssm w k) e ->
  outcome (get_config w file_path ssm_path model) = Raises e /\
  touches_fs (trace (get_config w file_path ssm_path model)) = false.
Proof.
  intros Hk Hf.
  pose proof (read_config_ssm_failure w ssm_path model k e Hk Hf) as Ho.
  rewrite (get_config_remote_raises w file_path _ _ _ Ho).
  split; [reflexivity | apply read_config_ssm_no_fs].
Qed.

Lemma remote_failure_is_fatal_throttled :
  outcome (find_config_file throttled_world None) = Returns CONFIG_PATH_CWD /\
  outcome (get_config throttled_world None (Some "/cyhy/config") None) =
    Raises (ClientError "ThrottlingException") /\
  touches_fs (trace (get_config throttled_world None (Some "/cyhy/config") None)) = false.
Proof.
  split; [reflexivity|].
  apply (remote_failure_is_fatal throttled_world None (Some "/cyhy/config") None
           "/cyhy/config").
  - reflexivity.
  - apply rf_client. discriminate.
Defined.

(** C6. With no remote key configured and no existing candidate in any of
    the five filesystem tiers, [get_config] raises [FileNotFoundError]; it
    returns no configuration of its own making. *)
Theorem no_source_not_found (w : World) (file_path ssm_path : option string)
    (model : option Model) :
  ssm_first_key w ssm_path = None ->
  (forall k, 1 <= k <= 5 -> tier_candidate w file_path k = false) ->
  outcome (get_config w file_path ssm_path model) =
    Raises (FileNotFoundError "No CyHy configuration file found.") /\
  ssm_requests (trace (get_config w file_path ssm_path model)) = [].
Proof.
  intros Hk Hnone.
  pose proof (read_config_ssm_no_key w ssm_path model Hk) as Ho.
  split.
  - rewrite (get_config_falls_through w file_path _ _ _ Ho eq_refl).
    rewrite (config_from_file_none w file_path model _ (no_candidate_not_found w file_path Hnone)).
    reflexivity.
  - rewrite get_config_requests, read_config_ssm_requests, Hk. reflexivity.
Qed.

Lemma no_source_not_found_bare :
  outcome (get_config bare_world (Some "missing.toml") None None) =
    Raises (FileNotFoundError "No CyHy configuration file found.").
Proof.
  apply (no_source_not_found bare_world (Some "missing.toml") None None).
  - reflexivity.
  - intros k Hk. destruct k as [|[|[|[|[|[|k]]]]]]; try lia; reflexivity.
Defined.

(** ** Schema validation *)

Lemma dict_get_in (m : dict) k v :
  dict_get m k = Some v -> exists k', In (k', v) m /\ k' = k.
Proof.
  induction m as [|[k0 v0] m IH]; simpl; [discriminate|].
  destruct (String.eqb_spec k0 k) as [->|Hne].
  - intros [= ->]. exists k. split; [left; reflexivity | reflexivity].
  - intros H. destruct (IH H) as (k' & Hin & ->). exists k. split; [right; exact Hin | reflexivity].
Qed.

Lemma in_dict_get (m : dict) k v :
  In (k, v) m -> exists v', dict_get m k = Some v'.
Proof.
  induction m as [|[k0 v0] m IH]; simpl; [intros []|].
  intros [H|H].
  - injection H as -> ->. rewrite String.eqb_refl. eauto.
  - destruct (String.eqb k0 k); [eauto | apply IH, H].
Qed.

Lemma flat_map_nil {A B} (g : A -> list B) (l : list A) :
  (forall x, In x l -> g x = []) -> flat_map g l = [].
Proof.
  induction l as [|x l IH]; simpl; intros H; [reflexivity|].
  rewrite (H x (or_introl eq_refl)). apply IH.
  intros y Hy. apply H. right; exact Hy.
Qed.

Section Schema.

Variable s : SchemaDescriptor.
Variable m : dict.

Lemma validate_schema_outcome :
  outcome (validate_config m (Some (schema_model s))) =
    match schema_violations s m with
    | [] => Returns (CModel (populate s m))
    | vs => Raises (ValidationError vs)
    end.
Proof.
  unfold validate_config, call_model, schema_model, model_call.
  destruct (schema_violations s m); reflexivity.
Qed.

Lemma missing_field_reported f :
  In f (describe_fields s) ->
  f_required f = true ->
  dict_get m (f_name f) = None ->
  In (MissingField (f_name f)) (schema_violations s m).
Proof.
  intros Hin Hreq Hget. unfold schema_violations.
  apply in_or_app; left. apply in_flat_map. exists f. split; [exact Hin|].
  unfold field_violations. rewrite Hget, Hreq. left; reflexivity.
Qed.

Lemma well_typed_entry k v :
  well_typed s m = true ->
  dict_get m k = Some v ->
  entry_admitted s (k, v) = true.
Proof.
  unfold well_typed. rewrite forallb_forall. intros Hwt Hget.
  destruct (dict_get_in m k v Hget) as (k' & Hin & ->).
  specialize (Hwt _ Hin). simpl in Hwt. rewrite Hget in Hwt. exact Hwt.
Qed.

Lemma well_typed_field f v :
  well_typed s m = true ->
  In f (describe_fields s) ->
  dict_get m (f_name f) = Some v ->
  has_type (f_type f) v = true.
Proof.
  intros Hwt Hin Hget.
  pose proof (well_typed_entry _ _ Hwt Hget) as Hadm.
  unfold entry_admitted in Hadm. apply andb_prop in Hadm as [Hall _].
  rewrite forallb_forall in Hall. specialize (Hall f Hin).
  simpl in Hall. rewrite String.eqb_refl in Hall. exact Hall.
Qed.

Lemma conforming_no_violation :
  has_required s m = true ->
  well_typed s m = true ->
  schema_violations s m = [].
Proof.
  intros Hreq Hwt. unfold schema_violations.
  unfold has_required in Hreq. rewrite forallb_forall in Hreq.
  rewrite flat_map_nil.
  - simpl. unfold unknown_violations.
    destruct (allow_unknown s) eqn:Hopen; [reflexivity|].
    apply flat_map_nil. intros [k v] Hin. simpl.
    destruct (in_dict_get m k v Hin) as [v' Hget].
    pose proof (well_typed_entry _ _ Hwt Hget) as Hadm.
    unfold entry_admitted in Hadm. apply andb_prop in Hadm as [_ Hd].
    rewrite Hopen in Hd. simpl in Hd. rewrite Hd. reflexivity.
  - intros f Hin. unfold field_violations. specialize (Hreq f Hin).
    destruct (dict_get m (f_name f)) as [v|] eqn:Hget.
    + rewrite (well_typed_field f v Hwt Hin Hget). reflexivity.
    + destruct (f_required f); [discriminate Hreq | reflexivity].
Qed.

(** The instance holds, under each declared name, the mapping's value. *)
Lemma populate_absent (fs : list FieldSpec) n :
  dict_get m n = None ->
  dict_get (flat_map (fun f => match dict_get m (f_name f) with
                               | Some v => [(f_name f, v)]
                               | None => []
                               end) fs) n = None.
Proof.
  intros Hn. induction fs as [|f fs IH]; simpl; [reflexivity|].
  destruct (dict_get m (f_name f)) as [v|] eqn:Hget; simpl; [|exact IH].
  destruct (String.eqb_spec (f_name f) n) as [Heq|_]; [|exact IH].
  rewrite Heq in Hget. congruence.
Qed.

Lemma populate_get f :
  In f (describe_fields s) ->
  dict_get (populate s m) (f_name f) = dict_get m (f_name f).
Proof.
  unfold populate. induction (describe_fields s) as [|f0 fs IH]; simpl; [intros []|].
  intros Hin.
  destruct (String.eqb_spec (f_name f0) (f_name f)) as [Heq|Hne].
  - rewrite Heq. destruct (dict_get m (f_name f)) as [v|] eqn:Hget; simpl.
    + rewrite String.eqb_refl. reflexivity.
    + apply populate_absent, Hget.
  - destruct Hin as [->|Hin]; [congruence|].
    destruct (dict_get m (f_name f0)) as [v|]; simpl.
    + destruct (String.eqb_spec (f_name f0) (f_name f)); [congruence | apply IH, Hin].
    + apply IH, Hin.
Qed.

End Schema.

(** With a model, [validate_config] hands back exactly what the model's
    construction yields: its instance, or the exception it raised. *)
Lemma validate_config_model (m : dict) (model : Model) :
  outcome (validate_config m (Some model)) =
    match model_call model m with
    | inr i => Returns (CModel i)
    | inl e => Raises e
    end.
Proof.
  unfold validate_config, call_model.
  destruct (model_call model m) as [e|i]; [destruct e|]; reflexivity.
Qed.

(** C7, as the code has it.  Whatever the model, [validate_config] returns
    the instance the model's construction yields and raises the exception it
    raised, unchanged.  Against a schema: a mapping that lacks a required
    field makes it raise the validation error, and that field is among the
    violations listed; a mapping that holds every required field and whose
    every entry is admitted by the schema (the type declared for its key, no
    key refused by the openness policy) makes it return an instance in which
    every declared field has the mapping's value and every required field is
    populated. *)
Theorem schema_validation (s : SchemaDescriptor) (m : dict) :
  (forall model : Model,
     outcome (validate_config m (Some model)) =
       match model_call model m with
       | inr i => Returns (CModel i)
       | inl e => Raises e
       end) /\
  (forall f,
     In f (describe_fields s) ->
     f_required f = true ->
     dict_get m (f_name f) = None ->
     exists vs,
       outcome (validate_config m (Some (schema_model s))) = Raises (ValidationError vs) /\
       In (MissingField (f_name f)) vs) /\
  (has_required s m = true ->
   well_typed s m = true ->
   exists inst,
     outcome (validate_config m (Some (schema_model s))) = Returns (CModel inst) /\
     forall f,
       In f (describe_fields s) ->
       dict_get inst (f_name f) = dict_get m (f_name f) /\
       (f_required f = true ->
        exists v, dict_get inst (f_name f) = Some v /\ has_type (f_type f) v = true)).
Proof.
  split; [intros model; apply validate_config_model|].
  split.
  - intros f Hin Hreq Hget.
    pose proof (missing_field_reported s m f Hin Hreq Hget) as Hmiss.
    rewrite validate_schema_outcome.
    destruct (schema_violations s m) as [|v vs]; [destruct Hmiss|].
    exists (v :: vs). split; [reflexivity | exact Hmiss].
  - intros Hreq Hwt. exists (populate s m).
    rewrite validate_schema_outcome, (conforming_no_violation s m Hreq Hwt).
    split; [reflexivity|].
    intros f Hin. split; [apply populate_get, Hin|].
    intros Hf. rewrite (populate_get s m f Hin).
    unfold has_required in Hreq. rewrite forallb_forall in Hreq.
    specialize (Hreq f Hin).
    destruct (dict_get m (f_name f)) as [v|] eqn:Hget.
    + exists v. split; [reflexivity | apply (well_typed_field s m f v Hwt Hin Hget)].
    + rewrite Hf in Hreq. discriminate Hreq.
Qed.

Lemma schema_validation_port :
  (exists vs,
     outcome (validate_config [("debug", VBool true)] (Some (schema_model port_schema))) =
       Raises (ValidationError vs) /\
     In (MissingField "port") vs) /\
  (exists inst,
     outcome (validate_config [("port", VInt 8080)] (Some (schema_model port_schema))) =
       Returns (CModel inst) /\
     dict_get inst "port" = Some (VInt 8080)).
Proof.
  split.
  - apply (proj1 (proj2 (schema_validation port_schema [("debug", VBool true)]))
             {| f_name := "port"; f_type := TInt; f_required := true |});
      [left; reflexivity | reflexivity | reflexivity].
  - destruct (proj2 (proj2 (schema_validation port_schema [("port", VInt 8080)]))
                eq_refl eq_refl) as (inst & Ho & Hf).
    exists inst. split; [exact Ho|].
    destruct (Hf {| f_name := "port"; f_type := TInt; f_required := true |}
                 (or_introl eq_refl)) as [Heq _].
    exact Heq.
Defined.

(** C7, counterexample.  Two mappings that hold every required field of the
    schema with the right type, and for which no instance is returned: one
    has a key the schema does not declare and does not admit, the other an
    optional field of the wrong type. *)
Lemma required_fields_alone_do_not_suffice :
  required_fields_typed port_schema [("port", VInt 8080); ("bogus", VInt 1)] = true /\
  outcome (validate_config [("port", VInt 8080); ("bogus", VInt 1)]
             (Some (schema_model port_schema))) =
    Raises (ValidationError [UnknownField "bogus"]) /\
  required_fields_typed port_schema [("port", VInt 8080); ("debug", VArray [])] = true /\
  outcome (validate_config [("port", VInt 8080); ("debug", VArray [])]
             (Some (schema_model port_schema))) =
    Raises (ValidationError [TypeMismatch "debug"]).
Proof. repeat split; reflexivity. Qed.

(** C8. Without a model [validate_config] returns the mapping it was given,
    unchanged; so whatever [get_config] returns without a model is the
    mapping decoded from the text of its source, the remote parameter or the
    file. *)
Theorem no_model_pass_through :
  (forall d, outcome (validate_config d None) = Returns (CDict d)) /\
  (forall w file_path ssm_path c,
     outcome (get_config w file_path ssm_path None) = Returns c ->
     exists text d,
       toml_loads w text = Some d /\ c = CDict d /\
       ((exists k, ssm w k = SsmValue text) \/ (exists p, fs_read w p = Some text))).
Proof.
  split; [reflexivity|].
  intros w file_path ssm_path c Hget.
  destruct (outcome (read_config_ssm w ssm_path None)) as [r|e] eqn:Hssm.
  - destruct (truthy_config r) eqn:Ht.
    + destruct r as [c'|]; [|discriminate Ht].
      rewrite (get_config_remote w file_path _ _ _ Hssm Ht) in Hget.
      injection Hget as <-.
      destruct (read_config_ssm_plain w ssm_path c' Hssm) as (k & text & d & _ & Hs & Hd & ->).
      exists text, d. repeat split; [exact Hd | left; exists k; exact Hs].
    + rewrite (get_config_falls_through w file_path _ _ _ Hssm Ht) in Hget.
      simpl in Hget.
      destruct (outcome (find_config_file w file_path)) as [p|e] eqn:Hfind.
      * rewrite (config_from_file_found w file_path None p Hfind) in Hget.
        simpl in Hget.
        destruct (read_config_file_plain w p c Hget) as (text & d & Hr & Hd & ->).
        exists text, d. repeat split; [exact Hd | right; exists p; exact Hr].
      * rewrite (config_from_file_none w file_path None e Hfind) in Hget.
        discriminate Hget.
  - rewrite (get_config_remote_raises w file_path _ _ _ Hssm) in Hget.
    discriminate Hget.
Qed.

Lemma no_model_pass_through_home :
  exists text d,
    toml_loads home_world text = Some d /\
    CDict [("port", VInt 8080)] = CDict d /\
    ((exists k, ssm home_world k = SsmValue text) \/
     (exists p, fs_read home_world p = Some text)).
Proof.
  apply (proj2 no_model_pass_through home_world None None (CDict [("port", VInt 8080)])).
  reflexivity.
Defined.

(** C9. A remote success that still falls back to the filesystem: when the
    store returns, for the first key, a text that decodes to the empty
    mapping and no model is given, [read_config_ssm] returns that empty
    mapping, [get_config] takes it for absent and carries on with the
    filesystem lookup.  The call then does look at the filesystem: it runs
    [find_config_file] and, on the path found, [read_config_file]; it ends
    as they do, and a configuration it returns is the mapping decoded from
    the text of that file, not the remote one. *)
Theorem empty_remote_mapping_falls_through (w : World)
    (file_path ssm_path : option string) (k text : string) :
  ssm_first_key w ssm_path = Some k ->
  ssm w k = SsmValue text ->
  toml_loads w text = Some [] ->
  outcome (read_config_ssm w ssm_path None) = Returns (Some (CDict [])) /\
  get_config w file_path ssm_path None =
    (trace (read_config_ssm w ssm_path None) ++ trace (config_from_file w file_path None),
     outcome (config_from_file w file_path None)) /\
  touches_fs (trace (get_config w file_path ssm_path None)) = true /\
  (forall p,
     outcome (find_config_file w file_path) = Returns p ->
     get_config w file_path ssm_path None =
       (trace (read_config_ssm w ssm_path None)
          ++ trace (find_config_file w file_path)
          ++ trace (read_config_file w p None),
        outcome (read_config_file w p None))) /\
  (forall e,
     outcome (find_config_file w file_path) = Raises e ->
     get_config w file_path ssm_path None =
       (trace (read_config_ssm w ssm_path None) ++ trace (find_config_file w file_path),
        Raises e)) /\
  (forall c,
     outcome (get_config w file_path ssm_path None) = Returns c ->
     exists p ftext d,
       outcome (find_config_file w file_path) = Returns p /\
       fs_exists w p = true /\
       fs_read w p = Some ftext /\
       toml_loads w ftext = Some d /\
       c = CDict d).
Proof.
  intros Hk Hs Hd.
  pose proof (read_config_ssm_value w ssm_path k text [] Hk Hs Hd) as Ho.
  pose proof (get_config_falls_through w file_path _ _ _ Ho eq_refl) as Hget.
  assert (Hfound : forall p,
            outcome (find_config_file w file_path) = Returns p ->
            get_config w file_path ssm_path None =
              (trace (read_config_ssm w ssm_path None)
                 ++ trace (find_config_file w file_path)
                 ++ trace (read_config_file w p None),
               outcome (read_config_file w p None))).
  { intros p Hfind. rewrite Hget.
    rewrite (config_from_file_found w file_path None p Hfind). reflexivity. }
  assert (Hnone : forall e,
            outcome (find_config_file w file_path) = Raises e ->
            get_config w file_path ssm_path None =
              (trace (read_config_ssm w ssm_path None)
                 ++ trace (find_config_file w file_path),
               Raises e)).
  { intros e Hfind. rewrite Hget.
    rewrite (config_from_file_none w file_path None e Hfind). reflexivity. }
  split; [exact Ho|]. split; [exact Hget|].
  split; [|split; [exact Hfound | split; [exact Hnone|]]].
  - destruct (outcome (find_config_file w file_path)) as [p|e] eqn:Hfind.
    + rewrite (Hfound p eq_refl). cbn [trace fst].
      rewrite !touches_fs_app, find_config_file_touches_fs.
      cbn [orb]. apply orb_true_r.
    + rewrite (Hnone e eq_refl). cbn [trace fst].
      rewrite touches_fs_app, find_config_file_touches_fs.
      apply orb_true_r.
  - intros c Hc.
    destruct (outcome (find_config_file w file_path)) as [p|e] eqn:Hfind.
    + rewrite (Hfound p eq_refl) in Hc. simpl in Hc.
      destruct (read_config_file_plain w p c Hc) as (ftext & d & Hr & Hl & ->).
      exists p, ftext, d. repeat split; try assumption.
      apply (find_config_file_exists w file_path p Hfind).
    + rewrite (Hnone e eq_refl) in Hc. discriminate Hc.
Qed.

Lemma empty_remote_mapping_falls_through_cwd :
  outcome (read_config_ssm empty_remote_world (Some "/cyhy/config") None) =
    Returns (Some (CDict [])) /\
  touches_fs (trace (get_config empty_remote_world None (Some "/cyhy/config") None)) = true /\
  outcome (get_config empty_remote_world None (Some "/cyhy/config") None) =
    Returns (CDict [("port", VInt 8080)]).
Proof.
  destruct (empty_remote_mapping_falls_through empty_remote_world None
              (Some "/cyhy/config") "/cyhy/config" EmptyString
              eq_refl eq_refl eq_refl) as (Ho & _ & Hfs & Hfound & _ & _).
  split; [exact Ho|]. split; [exact Hfs|].
  rewrite (Hfound CONFIG_PATH_CWD eq_refl). reflexivity.
Defined.

(** C10. A path that exists but is not a regular file (a directory, say) is
    accepted by [find_config_file], whose check is existence only;
    [read_config_file] then raises [FileNotFoundError] for it before opening
    or decoding anything, and so does [get_config] when the remote lookup
    has produced nothing. *)
Theorem non_regular_candidate_fails_on_read (w : World)
    (file_path ssm_path : option string) (model : option Model) (k : nat) (p : Path) :
  1 <= k <= 5 ->
  tier_path w file_path k = Some p ->
  fs_exists w p = true ->
  fs_isfile w p = false ->
  (forall j, 1 <= j < k -> tier_candidate w file_path j = false) ->
  outcome (find_config_file w file_path) = Returns p /\
  read_config_file w p model =
    ([EvIsFile p; EvLog ERROR "Config file not found: %s" [APath p]],
     Raises (FileNotFoundError ("Config file not found: " ++ path_str p)%string)) /\
  (forall r,
     outcome (read_config_ssm w ssm_path model) = Returns r ->
     truthy_config r = false ->
     outcome (get_config w file_path ssm_path model) =
       Raises (FileNotFoundError ("Config file not found: " ++ path_str p)%string)).
Proof.
  intros Hk Hp Hex Hreg Hprev.
  pose proof (first_candidate_found w file_path k p Hk Hp Hex Hprev) as Hfind.
  pose proof (read_config_file_not_regular w p model Hreg) as Hread.
  repeat split; try assumption.
  intros r Hssm Ht.
  rewrite (get_config_falls_through w file_path _ _ _ Hssm Ht).
  rewrite (config_from_file_found w file_path model p Hfind), Hread.
  reflexivity.
Qed.

Lemma non_regular_candidate_fails_on_read_etc :
  outcome (find_config_file etc_dir_world None) = Returns CONFIG_PATH_ETC /\
  outcome (get_config etc_dir_world None None None) =
    Raises (FileNotFoundError "Config file not found: /etc/cyhy.toml").
Proof.
  destruct (non_regular_candidate_fails_on_read etc_dir_world None None None 5
              CONFIG_PATH_ETC) as (Hfind & _ & Hget).
  - lia.
  - reflexivity.
  - reflexivity.
  - reflexivity.
  - intros j Hj. destruct j as [|[|[|[|[|j]]]]]; try lia; reflexivity.
  - split; [exact Hfind|]. apply (Hget None); reflexivity.
Defined.

(** ** Further properties of the module *)

Section Further.

Variable w : World.

(** How [get_config] ends, in terms of its two halves. *)
Lemma get_config_outcome file_path ssm_path model :
  outcome (get_config w file_path ssm_path model) =
    match outcome (read_config_ssm w ssm_path model) with
    | Raises e => Raises e
    | Returns None => outcome (config_from_file w file_path model)
    | Returns (Some c) =>
        if truthy_config (Some c) then Returns c
        else outcome (config_from_file w file_path model)
    end.
Proof.
  destruct (outcome (read_config_ssm w ssm_path model)) as [r|e] eqn:E.
  - destruct r as [c|].
    + destruct (truthy_config (Some c)) eqn:Ht.
      * rewrite (get_config_remote w file_path _ _ _ E Ht). reflexivity.
      * rewrite (get_config_falls_through w file_path _ _ _ E Ht). reflexivity.
    + rewrite (get_config_falls_through w file_path _ _ _ E eq_refl). reflexivity.
  - rewrite (get_config_remote_raises w file_path _ _ _ E). reflexivity.
Qed.

(** When the remote lookup ends the call, the call's trace is the lookup's. *)
Lemma get_config_trace_remote file_path ssm_path model :
  (forall r, outcome (read_config_ssm w ssm_path model) = Returns r ->
             truthy_config r = true) ->
  trace (get_config w file_path ssm_path model) =
  trace (read_config_ssm w ssm_path model).
Proof.
  intros Hr.
  destruct (outcome (read_config_ssm w ssm_path model)) as [r|e] eqn:E.
  - pose proof (Hr r eq_refl) as Ht. destruct r as [c|]; [|discriminate Ht].
    rewrite (get_config_remote w file_path _ _ _ E Ht). reflexivity.
  - rewrite (get_config_remote_raises w file_path _ _ _ E). reflexivity.
Qed.

Lemma read_config_ssm_garbled ssm_path model k text :
  ssm_first_key w ssm_path = Some k ->
  ssm w k = SsmValue text ->
  toml_loads w text = None ->
  outcome (read_config_ssm w ssm_path model) = Raises (TOMLDecodeError text) /\
  error_logs (trace (read_config_ssm w ssm_path model)) =
    [("Error decoding TOML: %s", [AStr text])].
Proof.
  unfold read_config_ssm, ssm_first_key, environ_get, ssm_get_parameter,
    tomllib_loads, log, ret, raise.
  destruct (truthy_str ssm_path) as [k1|] eqn:E1;
    [| destruct (truthy_str (environ w CYHY_CONFIG_SSM_PATH_ENV)) as [k2|] eqn:E2 ];
    intros H; inversion H; subst; intros Hs Hd;
    cbn -[String.eqb]; rewrite ?E1, ?E2; cbn -[String.eqb]; rewrite Hs;
    cbn -[String.eqb]; unfold tomllib_loads, raise;
    rewrite Hd; split; reflexivity.
Qed.

Lemma read_config_ssm_validated ssm_path model k text d :
  ssm_first_key w ssm_path = Some k ->
  ssm w k = SsmValue text ->
  toml_loads w text = Some d ->
  outcome (read_config_ssm w ssm_path (Some model)) =
    match model_call model d with
    | inr i => Returns (Some (CModel i))
    | inl e => Raises e
    end.
Proof.
  unfold read_config_ssm, ssm_first_key, environ_get, ssm_get_parameter,
    tomllib_loads, log, ret, raise.
  destruct (truthy_str ssm_path) as [k1|] eqn:E1;
    [| destruct (truthy_str (environ w CYHY_CONFIG_SSM_PATH_ENV)) as [k2|] eqn:E2 ];
    intros H; inversion H; subst; intros Hs Hd;
    cbn -[String.eqb]; rewrite ?E1, ?E2; cbn -[String.eqb]; rewrite Hs;
    cbn -[String.eqb]; unfold tomllib_loads, validate_config, call_model, log, ret, raise;
    rewrite Hd; cbn -[String.eqb];
    (destruct (model_call model d) as [e|i]; [destruct e|]; reflexivity).
Qed.

Lemma read_config_file_decoded p model text d :
  fs_isfile w p = true ->
  fs_read w p = Some text ->
  toml_loads w text = Some d ->
  outcome (read_config_file w p model) = outcome (validate_config d model).
Proof.
  intros Hf Hr Hd.
  unfold read_config_file, os_path_isfile, open_read, tomllib_loads, log, ret.
  cbn. rewrite Hf. cbn. rewrite Hr. cbn. rewrite Hd. cbn.
  destruct (validate_config d model); reflexivity.
Qed.

Lemma read_config_file_garbled p model text :
  fs_isfile w p = true ->
  fs_read w p = Some text ->
  toml_loads w text = None ->
  read_config_file w p model =
    ([EvIsFile p;
      EvLog DEBUG "Reading config file: %s" [APath p];
      EvOpen p;
      EvLog ERROR "Error decoding TOML file: %s" [APath p]],
     Raises (TOMLDecodeError text)).
Proof.
  intros Hf Hr Hd.
  unfold read_config_file, os_path_isfile, open_read, tomllib_loads, log, raise.
  cbn. rewrite Hf. cbn. rewrite Hr. cbn. rewrite Hd. reflexivity.
Qed.

Lemma read_config_file_unreadable p model :
  fs_isfile w p = true ->
  fs_read w p = None ->
  read_config_file w p model =
    ([EvIsFile p; EvLog DEBUG "Reading config file: %s" [APath p]; EvOpen p],
     Raises (OSError p)).
Proof.
  intros Hf Hr.
  unfold read_config_file, os_path_isfile, open_read, log.
  cbn. rewrite Hf. cbn. rewrite Hr. reflexivity.
Qed.

(** [find_config_file] ends in one of two ways. *)
Lemma find_config_file_cases file_path :
  (exists k p,
     1 <= k <= 5 /\ tier_path w file_path k = Some p /\ fs_exists w p = true /\
     (forall j, 1 <= j < k -> tier_candidate w file_path j = false) /\
     outcome (find_config_file w file_path) = Returns p) \/
  ((forall k, 1 <= k <= 5 -> tier_candidate w file_path k = false) /\
   outcome (find_config_file w file_path) =
     Raises (FileNotFoundError "No CyHy configuration file found.")).
Proof.
  assert (Hfirst : forall n,
            (exists k, 1 <= k <= n /\ tier_candidate w file_path k = true /\
                       forall j, 1 <= j < k -> tier_candidate w file_path j = false) \/
            (forall k, 1 <= k <= n -> tier_candidate w file_path k = false)).
  { induction n as [|n IH].
    - right. intros k Hk. lia.
    - destruct IH as [(k & Hk & Hc & Hprev) | Hnone].
      + left. exists k. repeat split; try assumption; lia.
      + destruct (tier_candidate w file_path (S n)) eqn:E.
        * left. exists (S n). split; [|split].
          -- destruct n; lia.
          -- exact E.
          -- intros j Hj. apply Hnone. lia.
        * right. intros k Hk.
          destruct (Nat.eq_dec k (S n)) as [->|Hne]; [exact E | apply Hnone; lia]. }
  destruct (Hfirst 5) as [(k & Hk & Hc & Hprev) | Hnone].
  - left. unfold tier_candidate in Hc.
    destruct (tier_path w file_path k) as [p|] eqn:Hp; [|discriminate Hc].
    exists k, p. repeat split; try assumption; try lia.
    apply (first_candidate_found w file_path k p Hk Hp Hc Hprev).
  - right. split; [exact Hnone | apply no_candidate_not_found, Hnone].
Qed.

End Further.

(** X1. A remote value that is not valid TOML ends the call: [get_config]
    raises the decode error, logs the offending (decrypted) text at error
    level, and does not fall back to the filesystem. *)
Theorem remote_decode_error_is_fatal (w : World) (file_path ssm_path : option string)
    (model : option Model) (k text : string) :
  ssm_first_key w ssm_path = Some k ->
  ssm w k = SsmValue text ->
  toml_loads w text = None ->
  outcome (get_config w file_path ssm_path model) = Raises (TOMLDecodeError text) /\
  touches_fs (trace (get_config w file_path ssm_path model)) = false /\
  error_logs (trace (get_config w file_path ssm_path model)) =
    [("Error decoding TOML: %s", [AStr text])].
Proof.
  intros Hk Hs Hd.
  destruct (read_config_ssm_garbled w ssm_path model k text Hk Hs Hd) as [Ho He].
  rewrite (get_config_remote_raises w file_path _ _ _ Ho).
  repeat split; [apply read_config_ssm_no_fs | exact He].
Qed.

Lemma remote_decode_error_is_fatal_sample :
  outcome (find_config_file garbled_remote_world None) = Returns CONFIG_PATH_CWD /\
  outcome (get_config garbled_remote_world None (Some "/cyhy/config") None) =
    Raises (TOMLDecodeError "port = = 8080") /\
  touches_fs (trace (get_config garbled_remote_world None (Some "/cyhy/config") None)) = false.
Proof.
  split; [reflexivity|].
  destruct (remote_decode_error_is_fatal garbled_remote_world None (Some "/cyhy/config")
              None "/cyhy/config" "port = = 8080" eq_refl eq_refl eq_refl)
    as (Ho & Hfs & _).
  split; [exact Ho | exact Hfs].
Defined.

(** X2. A configuration file that is not valid TOML makes [get_config]
    raise the decode error; the one error record [read_config_file] logs
    names the file's path, not its content. *)
Theorem file_decode_error_names_path (w : World) (file_path ssm_path : option string)
    (model : option Model) (p : Path) (text : string) (r : option Config) :
  outcome (read_config_ssm w ssm_path model) = Returns r ->
  truthy_config r = false ->
  outcome (find_config_file w file_path) = Returns p ->
  fs_isfile w p = true ->
  fs_read w p = Some text ->
  toml_loads w text = None ->
  outcome (get_config w file_path ssm_path model) = Raises (TOMLDecodeError text) /\
  error_logs (trace (read_config_file w p model)) =
    [("Error decoding TOML file: %s", [APath p])].
Proof.
  intros Hssm Ht Hfind Hf Hr Hd.
  pose proof (read_config_file_garbled w p model text Hf Hr Hd) as Hread.
  rewrite (get_config_falls_through w file_path _ _ _ Hssm Ht).
  rewrite (config_from_file_found w file_path model p Hfind), Hread.
  split; reflexivity.
Qed.

Lemma file_decode_error_names_path_sample :
  outcome (get_config garbled_file_world None None None) =
    Raises (TOMLDecodeError "port = = 8080") /\
  error_logs (trace (read_config_file garbled_file_world CONFIG_PATH_CWD None)) =
    [("Error decoding TOML file: %s", [APath CONFIG_PATH_CWD])].
Proof.
  apply (file_decode_error_names_path garbled_file_world None None None
           CONFIG_PATH_CWD "port = = 8080" None); reflexivity.
Defined.

(** X3. A regular file that cannot be opened: the error of [open] is not
    caught by [read_config_file], which logs no error record for it, and
    [get_config] raises it. *)
Theorem unreadable_file_propagates (w : World) (file_path ssm_path : option string)
    (model : option Model) (p : Path) (r : option Config) :
  outcome (read_config_ssm w ssm_path model) = Returns r ->
  truthy_config r = false ->
  outcome (find_config_file w file_path) = Returns p ->
  fs_isfile w p = true ->
  fs_read w p = None ->
  outcome (get_config w file_path ssm_path model) = Raises (OSError p) /\
  error_logs (trace (read_config_file w p model)) = [].
Proof.
  intros Hssm Ht Hfind Hf Hr.
  pose proof (read_config_file_unreadable w p model Hf Hr) as Hread.
  rewrite (get_config_falls_through w file_path _ _ _ Hssm Ht).
  rewrite (config_from_file_found w file_path model p Hfind), Hread.
  split; reflexivity.
Qed.

Lemma unreadable_file_propagates_sample :
  outcome (get_config unreadable_world None None None) = Raises (OSError CONFIG_PATH_CWD) /\
  error_logs (trace (read_config_file unreadable_world CONFIG_PATH_CWD None)) = [].
Proof.
  apply (unreadable_file_propagates unreadable_world None None None
           CONFIG_PATH_CWD None); reflexivity.
Defined.

(** X4. [find_config_file] returns a path only if that path exists and is
    the candidate of the first tier that has an existing one. *)
Theorem find_config_file_sound (w : World) (file_path : option string) (p : Path) :
  outcome (find_config_file w file_path) = Returns p ->
  fs_exists w p = true /\
  exists k, 1 <= k <= 5 /\ tier_path w file_path k = Some p /\
            forall j, 1 <= j < k -> tier_candidate w file_path j = false.
Proof.
  destruct (find_config_file_cases w file_path)
    as [(k & q & Hk & Hq & Hex & Hprev & Ho) | (Hnone & Ho)]; rewrite Ho.
  - intros [= <-]. split; [exact Hex|]. exists k. repeat split; try assumption; lia.
  - intros H. discriminate H.
Qed.

Lemma find_config_file_sound_home :
  fs_exists home_world (MkPath "/home/cyhy/.cyhy/cyhy.toml") = true /\
  exists k, 1 <= k <= 5 /\
            tier_path home_world None k = Some (MkPath "/home/cyhy/.cyhy/cyhy.toml") /\
            forall j, 1 <= j < k -> tier_candidate home_world None j = false.
Proof.
  apply (find_config_file_sound home_world None (MkPath "/home/cyhy/.cyhy/cyhy.toml")).
  reflexivity.
Defined.

Lemma read_config_ssm_empty_key (w : World) (model : option Model) :
  outcome (read_config_ssm w (Some EmptyString) model) =
  outcome (read_config_ssm w None model).
Proof.
  unfold read_config_ssm, environ_get. rewrite !outcome_bind.
  cbn [read_config_ssm_loop truthy_str]. unfold log. rewrite !outcome_bind.
  reflexivity.
Qed.

Lemma joinpath_nonempty (p : Path) (rel : string) :
  joinpath p rel <> MkPath EmptyString.
Proof.
  unfold joinpath. destruct (path_str p); simpl; discriminate.
Qed.

(** X5. An empty explicit path or key counts as none at all: [get_config]
    ends the same way as when neither is given, and [find_config_file] never
    tests the empty path for existence, whether it came from the argument or
    from the environment. *)
Theorem empty_strings_are_absent (w : World) :
  (forall model,
     outcome (get_config w (Some EmptyString) (Some EmptyString) model) =
     outcome (get_config w None None model)) /\
  (forall file_path,
     existsb (path_eqb (MkPath EmptyString))
             (existence_checks (trace (find_config_file w file_path))) = false).
Proof.
  split.
  - intros model. rewrite !get_config_outcome, read_config_ssm_empty_key.
    reflexivity.
  - intros file_path.
    assert (Hhome : path_eqb (MkPath EmptyString) (CONFIG_PATH_HOME w) = false).
    { unfold CONFIG_PATH_HOME, joinpath, path_eqb. simpl.
      destruct (path_str (home w)); reflexivity. }
    unfold find_config_file, find_in_env, find_in_cwd, find_in_home, find_in_etc.
    destruct file_path as [[|c fp]|];
      destruct (environ w CYHY_CONFIG_PATH_ENV) as [[|c' v]|] eqn:E;
      unfold environ_get, Path_exists, log, ret, raise;
      cbn -[CONFIG_PATH_HOME path_eqb]; rewrite ?E; cbn -[CONFIG_PATH_HOME path_eqb];
      repeat (split_query; cbn -[CONFIG_PATH_HOME path_eqb]);
      rewrite ?Hhome; reflexivity.
Qed.

(** X6. [find_config_file] warns about a missing path only when the path was
    named by the caller or by the environment: one warning for an argument
    that does not exist, one for an environment value that does not exist
    (if the search gets that far), and none for the three fixed locations. *)
Theorem warnings_only_for_named_paths (w : World) (file_path : option string) :
  let env_warning :=
    match truthy_str (environ w CYHY_CONFIG_PATH_ENV) with
    | Some v =>
        if fs_exists w (MkPath v) then []
        else [("Configuration file from environment variable not found: %s",
               [APath (MkPath v)])]
    | None => []
    end in
  warnings (trace (find_config_file w file_path)) =
    match truthy_str file_path with
    | Some p =>
        if fs_exists w (MkPath p) then []
        else ("Configuration file passed as parameter not found: %s", [AStr p])
               :: env_warning
    | None => env_warning
    end.
Proof.
  unfold find_config_file, find_in_env, find_in_cwd, find_in_home, find_in_etc.
  run; reflexivity.
Qed.

(** X7. With a model, a remote value that decodes but is refused by the
    model ends the call: [get_config] raises the model's exception and does
    not fall back to the filesystem. *)
Theorem remote_validation_error_is_fatal (w : World) (file_path ssm_path : option string)
    (model : Model) (k text : string) (d : dict) (e : Exn) :
  ssm_first_key w ssm_path = Some k ->
  ssm w k = SsmValue text ->
  toml_loads w text = Some d ->
  model_call model d = inl e ->
  outcome (get_config w file_path ssm_path (Some model)) = Raises e /\
  touches_fs (trace (get_config w file_path ssm_path (Some model))) = false.
Proof.
  intros Hk Hs Hd Hm.
  pose proof (read_config_ssm_validated w ssm_path model k text d Hk Hs Hd) as Ho.
  rewrite Hm in Ho.
  rewrite (get_config_remote_raises w file_path _ _ _ Ho).
  split; [reflexivity | apply read_config_ssm_no_fs].
Qed.

Lemma remote_validation_error_is_fatal_sample :
  outcome (config_from_file empty_remote_world None (Some (schema_model port_schema))) =
    Returns (CModel [("port", VInt 8080)]) /\
  outcome (get_config empty_remote_world None (Some "/cyhy/config")
             (Some (schema_model port_schema))) =
    Raises (ValidationError [MissingField "port"]).
Proof.
  split; [reflexivity|].
  apply (remote_validation_error_is_fatal empty_remote_world None (Some "/cyhy/config")
           (schema_model port_schema) "/cyhy/config" EmptyString []); reflexivity.
Defined.

(** X8. With a model, a remote value that the model accepts is what
    [get_config] returns, whatever the mapping was (the empty one included),
    and the filesystem is not looked at. *)
Theorem remote_instance_is_returned (w : World) (file_path ssm_path : option string)
    (model : Model) (k text : string) (d : dict) (i : Instance) :
  ssm_first_key w ssm_path = Some k ->
  ssm w k = SsmValue text ->
  toml_loads w text = Some d ->
  model_call model d = inr i ->
  outcome (get_config w file_path ssm_path (Some model)) = Returns (CModel i) /\
  touches_fs (trace (get_config w file_path ssm_path (Some model))) = false.
Proof.
  intros Hk Hs Hd Hm.
  pose proof (read_config_ssm_validated w ssm_path model k text d Hk Hs Hd) as Ho.
  rewrite Hm in Ho.
  rewrite (get_config_remote w file_path _ _ _ Ho eq_refl).
  split; [reflexivity | apply read_config_ssm_no_fs].
Qed.

Lemma remote_instance_is_returned_sample :
  outcome (get_config empty_remote_world None (Some "/cyhy/config")
             (Some (schema_model lenient_schema))) = Returns (CModel []) /\
  touches_fs (trace (get_config empty_remote_world None (Some "/cyhy/config")
                       (Some (schema_model lenient_schema)))) = false.
Proof.
  apply (remote_instance_is_returned empty_remote_world None (Some "/cyhy/config")
           (schema_model lenient_schema) "/cyhy/config" EmptyString [] []); reflexivity.
Defined.

(** X9. Without a model, a remote value that decodes to a non-empty mapping
    is what [get_config] returns; the call consists of the remote lookup
    alone and the filesystem is not looked at. *)
Theorem remote_nonempty_mapping_returned (w : World) (file_path ssm_path : option string)
    (k text : string) (d : dict) :
  ssm_first_key w ssm_path = Some k ->
  ssm w k = SsmValue text ->
  toml_loads w text = Some d ->
  d <> [] ->
  get_config w file_path ssm_path None =
    (trace (read_config_ssm w ssm_path None), Returns (CDict d)) /\
  touches_fs (trace (read_config_ssm w ssm_path None)) = false.
Proof.
  intros Hk Hs Hd Hne.
  pose proof (read_config_ssm_value w ssm_path k text d Hk Hs Hd) as Ho.
  split; [|apply read_config_ssm_no_fs].
  apply (get_config_remote w file_path _ _ _ Ho).
  destruct d; [contradiction Hne; reflexivity | reflexivity].
Qed.

Lemma remote_nonempty_mapping_returned_env :
  outcome (get_config env_key_world None None None) =
    Returns (CDict [("debug", VBool true)]).
Proof.
  destruct (remote_nonempty_mapping_returned env_key_world None None
              "/cyhy/env" "debug = true" [("debug", VBool true)]
              eq_refl eq_refl eq_refl) as [Hget _].
  - discriminate.
  - rewrite Hget. reflexivity.
Defined.

(** X10. When the remote lookup has produced nothing, the file of the first
    tier with an existing candidate is the one loaded: if it is a readable
    regular file whose text decodes, [get_config] ends as [validate_config]
    does on the decoded mapping. *)
Theorem first_candidate_file_is_loaded (w : World) (file_path ssm_path : option string)
    (model : option Model) (k : nat) (p : Path) (text : string) (d : dict)
    (r : option Config) :
  outcome (read_config_ssm w ssm_path model) = Returns r ->
  truthy_config r = false ->
  1 <= k <= 5 ->
  tier_path w file_path k = Some p ->
  fs_exists w p = true ->
  (forall j, 1 <= j < k -> tier_candidate w file_path j = false) ->
  fs_isfile w p = true ->
  fs_read w p = Some text ->
  toml_loads w text = Some d ->
  outcome (get_config w file_path ssm_path model) = outcome (validate_config d model).
Proof.
  intros Hssm Ht Hk Hp Hex Hprev Hf Hr Hd.
  pose proof (first_candidate_found w file_path k p Hk Hp Hex Hprev) as Hfind.
  rewrite (get_config_falls_through w file_path _ _ _ Hssm Ht).
  rewrite (config_from_file_found w file_path model p Hfind).
  apply (read_config_file_decoded w p model text d Hf Hr Hd).
Qed.

Lemma first_candidate_file_is_loaded_etc :
  outcome (get_config stale_paths_world (Some "missing.toml") None None) =
    Returns (CDict [("port", VInt 8080)]).
Proof.
  rewrite (first_candidate_file_is_loaded stale_paths_world (Some "missing.toml")
             None None 5 CONFIG_PATH_ETC "port = 8080" [("port", VInt 8080)] None).
  - reflexivity.
  - reflexivity.
  - reflexivity.
  - lia.
  - reflexivity.
  - reflexivity.
  - intros j Hj. destruct j as [|[|[|[|[|j]]]]]; try lia; reflexivity.
  - reflexivity.
  - reflexivity.
  - reflexivity.
Defined.

Lemma read_config_ssm_plain_exn (w : World) (ssm_path : option string) :
  match outcome (read_config_ssm w ssm_path None) with
  | Raises (ValidationError _) => False
  | _ => True
  end.
Proof.
  unfold read_config_ssm.
  run; exact I.
Qed.

Lemma read_config_file_plain_exn (w : World) (p : Path) :
  match outcome (read_config_file w p None) with
  | Raises (ValidationError _) => False
  | _ => True
  end.
Proof.
  unfold read_config_file.
  run; exact I.
Qed.

(** X11. Without a model [get_config] never raises a validation error:
    what it can raise is the error of the remote store, of the decoder, or
    of the file lookup and read. *)
Theorem no_model_no_validation_error (w : World) (file_path ssm_path : option string) :
  match outcome (get_config w file_path ssm_path None) with
  | Raises (ValidationError _) => False
  | _ => True
  end.
Proof.
  rewrite get_config_outcome.
  assert (Hfile : match outcome (config_from_file w file_path None) with
                  | Raises (ValidationError _) => False
                  | _ => True
                  end).
  { destruct (outcome (find_config_file w file_path)) as [p|e] eqn:Hfind.
    - rewrite (config_from_file_found w file_path None p Hfind).
      apply read_config_file_plain_exn.
    - rewrite (config_from_file_none w file_path None e Hfind).
      destruct (find_config_file_cases w file_path)
        as [(k & q & _ & _ & _ & _ & Ho) | (_ & Ho)];
        rewrite Ho in Hfind; [discriminate Hfind|].
      injection Hfind as <-. exact I. }
  pose proof (read_config_ssm_plain_exn w ssm_path) as Hssm.
  destruct (outcome (read_config_ssm w ssm_path None)) as [[c|]|e].
  - destruct (truthy_config (Some c)); [exact I | exact Hfile].
  - exact Hfile.
  - exact Hssm.
Qed.

(** X12. The two halves keep to their own source: the remote lookup never
    touches the filesystem, and neither the file search nor the file read
    sends anything to the parameter store. *)
Theorem sources_are_separate (w : World) (file_path ssm_path : option string)
    (model : option Model) (p : Path) :
  touches_fs (trace (read_config_ssm w ssm_path model)) = false /\
  ssm_requests (trace (find_config_file w file_path)) = [] /\
  ssm_requests (trace (read_config_file w p model)) = [].
Proof.
  split; [apply read_config_ssm_no_fs|].
  split; [apply find_config_file_no_ssm | apply read_config_file_no_ssm].
Qed.

(** X13. [find_config_file] stops at the first hit: the path it returns is
    the last one it tested for existence, and every path it tested before
    did not exist. *)
Theorem stops_at_first_hit (w : World) (file_path : option string) (p : Path) :
  outcome (find_config_file w file_path) = Returns p ->
  existence_checks (trace (find_config_file w file_path)) =
    removelast (existence_checks (trace (find_config_file w file_path))) ++ [p] /\
  forallb (fun q => negb (fs_exists w q))
          (removelast (existence_checks (trace (find_config_file w file_path)))) = true.
Proof.
  unfold find_config_file, find_in_env, find_in_cwd, find_in_home, find_in_etc.
  run; intros H; inversion H; subst; clear H;
    repeat match goal with
           | E : fs_exists _ _ = false |- _ => rewrite E; clear E
           end;
    split; reflexivity.
Qed.

Lemma stops_at_first_hit_etc :
  existence_checks (trace (find_config_file stale_paths_world (Some "missing.toml"))) =
    [MkPath "missing.toml"; MkPath "/opt/cyhy.toml"; CONFIG_PATH_CWD;
     CONFIG_PATH_HOME stale_paths_world] ++ [CONFIG_PATH_ETC].
Proof.
  apply (proj1 (stops_at_first_hit stale_paths_world (Some "missing.toml")
                  CONFIG_PATH_ETC eq_refl)).
Defined.
